(** * airops: shell command construction for docker and git over SSH

    A shallow embedding of [airops/docker.py] and [airops/vcs.py].  Python
    [str] values are byte strings ([string]); a [Dict[str, str]] is an
    insertion-ordered association list; an instance is either a record of
    the attributes its constructor assigns ([Docker]) or its attribute
    dictionary ([Git], whose constructor assigns none); exceptions are the
    left summand of a sum type. *)

From Stdlib Require Import Ascii String List Bool Lia.
From stdpp Require Import base option list strings gmap.
Import ListNotations.

(** ** Python values and helpers *)

Module Py.

(** The exceptions the modelled code can raise. *)
Inductive exn : Type :=
| TypeError
| AttributeError
| OperatorError (msg : string).

Definition result (A : Type) : Type := exn + A.
Definition ok {A : Type} (a : A) : result A := inr a.
Definition raise {A : Type} (e : exn) : result A := inl e.

Definition bind {A B : Type} (r : result A) (k : A → result B) : result B :=
  match r with
  | inl e => inl e
  | inr a => k a
  end.

(** Values that travel through [**kwargs] and instance dictionaries. *)
Inductive value : Type :=
| VNone
| VBool (b : bool)
| VInt (z : Z)
| VStr (s : string).

(** Truth value of an [Optional[str]]: [None] and [''] are false. *)
Definition truthy (o : option string) : bool :=
  match o with
  | None => false
  | Some EmptyString => false
  | Some (String _ _) => true
  end.

(** [sep.join(ls)]. *)
Fixpoint join (sep : string) (ls : list string) : string :=
  match ls with
  | [] => ""
  | [x] => x
  | x :: xs => x +:+ sep +:+ join sep xs
  end.

(** [s.replace(old, new)] for a one-character [old]. *)
Fixpoint replace (old : ascii) (new : string) (s : string) : string :=
  match s with
  | EmptyString => ""
  | String c s' =>
      if Ascii.eqb c old then new +:+ replace old new s'
      else String c (replace old new s')
  end.

(** [xs or list()] for an [Optional[List[str]]]. *)
Definition or_list (xs : option (list string)) : list string :=
  match xs with
  | Some (x :: l) => x :: l
  | _ => []
  end.

(** Binding [**kwargs] to a callee whose signature already names [names]:
    a repeated keyword is a [TypeError]. *)
Definition clashes (names : list string) (kwargs : list (string * value)) : bool :=
  existsb (fun kv => existsb (String.eqb (fst kv)) names) kwargs.

(** What [run], [build] and [clone] return: the command string when
    [return_command] is true, else the object the [SSHOperator]
    constructor produced. *)
Inductive returned (H : Type) : Type :=
| Command (command : string)
| Handle (h : H).
Arguments Command {H} command.
Arguments Handle {H} h.

(** [c in s] for a one-character [c]. *)
Fixpoint contains_char (c : ascii) (s : string) : bool :=
  match s with
  | EmptyString => false
  | String a s' => Ascii.eqb a c || contains_char c s'
  end.

(** Instance attribute lookup, [obj.name]. *)
Definition getattr (obj : gmap string value) (name : string) : result value :=
  match obj !! name with
  | Some v => ok v
  | None => raise AttributeError
  end.

End Py.

(** ** Insertion-ordered dictionaries *)

Module PyDict.

Definition t (V : Type) : Type := list (string * V).

Definition empty {V : Type} : t V := [].

(** [d[k] = v]: an existing key keeps its position and takes the new
    value, a new key goes to the end. *)
Fixpoint setitem {V : Type} (k : string) (v : V) (d : t V) : t V :=
  match d with
  | [] => [(k, v)]
  | (k', v') :: d' =>
      if String.eqb k' k then (k', v) :: d' else (k', v') :: setitem k v d'
  end.

(** A dictionary display [{k1: v1, k2: v2, ...}] or [dict(pairs)]. *)
Definition of_list {V : Type} (kvs : list (string * V)) : t V :=
  fold_left (fun d kv => setitem (fst kv) (snd kv) d) kvs empty.

(** [d.update(other)], also the effect of [**other] in a display. *)
Definition update {V : Type} (d other : t V) : t V :=
  fold_left (fun d kv => setitem (fst kv) (snd kv) d) other d.

Definition items {V : Type} (d : t V) : list (string * V) := d.

(** [d.get(k)] *)
Fixpoint get {V : Type} (k : string) (d : t V) : option V :=
  match d with
  | [] => None
  | (k', v) :: d' => if String.eqb k' k then Some v else get k d'
  end.

Definition len {V : Type} (d : t V) : nat := length d.

End PyDict.

(** ** [shlex.quote] of the Python standard library

    [airops] imports [shlex] and quotes every token with [shlex.quote].
    The function is transcribed from CPython's [Lib/shlex.py]:
    [_find_unsafe = re.compile(r'[^\w@%+=:,./-]', re.ASCII).search]. *)

Module shlex.

Definition is_word_char (c : ascii) : bool :=
  let n := nat_of_ascii c in
  ((48 <=? n) && (n <=? 57))          (* 0-9 *)
  || ((65 <=? n) && (n <=? 90))       (* A-Z *)
  || ((97 <=? n) && (n <=? 122))      (* a-z *)
  || (n =? 95).                       (* _ *)

Definition is_safe_char (c : ascii) : bool :=
  is_word_char c
  || existsb (Ascii.eqb c) ["@"; "%"; "+"; "="; ":"; ","; "."; "/"; "-"]%char.

(** [_find_unsafe(s) is None] *)
Fixpoint all_safe (s : string) : bool :=
  match s with
  | EmptyString => true
  | String c s' => is_safe_char c && all_safe s'
  end.

(** The five characters that replace a single quote: close the quoted run,
    a single quote inside double quotes, reopen. *)
Definition squote_escape : string :=
  String "'" (String "034" (String "'" (String "034" (String "'" EmptyString)))).

Definition quote (s : string) : string :=
  match s with
  | EmptyString => "''"
  | _ =>
      if all_safe s then s
      else "'" +:+ Py.replace "'"%char squote_escape s +:+ "'"
  end.

End shlex.

(** ** Word recognition of the POSIX shell

    The reading side of the quoting contract, after the Shell Command
    Language (token recognition and quote removal): blanks separate words,
    single quotes keep every character, double quotes keep every character
    but the dollar sign, the backquote and the backslash, and a backslash
    keeps the next character.  A character that would start an expansion
    or a pattern makes the result depend on the environment; the lexer
    answers [None] for those inputs, and for unterminated quoting. *)

Module posix.

Inductive token : Type :=
| TWord (w : string)
| TOp (o : string).

Inductive mode : Type := Unquoted | InSingle | InDouble.

Inductive char_class : Type :=
| CSingle | CDouble | CBackslash | CBlank | CNewline
| COperator | CExpansion | COrdinary.

(** Class of a character met outside quotes. *)
Definition classify (c : ascii) : char_class :=
  if Ascii.eqb c "'" then CSingle
  else if Ascii.eqb c "034" then CDouble
  else if Ascii.eqb c "\" then CBackslash
  else if Ascii.eqb c " " || Ascii.eqb c "009" then CBlank
  else if Ascii.eqb c "010" then CNewline
  else if existsb (Ascii.eqb c) ["|"; "&"; ";"; "<"; ">"; "("; ")"]%char
    then COperator
  else if existsb (Ascii.eqb c)
            ["$"; "`"; "*"; "?"; "["; "~"; "#"; "{"; "}"; "!"]%char
    then CExpansion
  else COrdinary.

(** Operator characters that pair up into a two-character operator. *)
Definition doubles (c : ascii) : bool :=
  existsb (Ascii.eqb c) ["|"; "&"; ";"; "<"; ">"]%char.

(** Inside double quotes a backslash escapes only these. *)
Definition dq_escapable (c : ascii) : bool :=
  existsb (Ascii.eqb c) ["$"; "`"; "034"; "\"]%char.

Definition push (cur : option string) (c : ascii) : option string :=
  Some (from_option id EmptyString cur +:+ String c EmptyString).

Definition start (cur : option string) : option string :=
  Some (from_option id EmptyString cur).

Definition flush (cur : option string) (r : option (list token))
  : option (list token) :=
  match cur with
  | Some w => cons (TWord w) <$> r
  | None => r
  end.

Definition emit (o : string) (r : option (list token)) : option (list token) :=
  cons (TOp o) <$> r.

Fixpoint lex (m : mode) (cur : option string) (s : string)
  : option (list token) :=
  match s with
  | EmptyString =>
      match m with
      | Unquoted => flush cur (Some [])
      | _ => None
      end
  | String c rest =>
      match m with
      | InSingle =>
          if Ascii.eqb c "'" then lex Unquoted cur rest
          else lex InSingle (push cur c) rest
      | InDouble =>
          if Ascii.eqb c "034" then lex Unquoted cur rest
          else if Ascii.eqb c "\" then
            match rest with
            | EmptyString => None
            | String d rest' =>
                if Ascii.eqb d "010" then lex InDouble cur rest'
                else if dq_escapable d then lex InDouble (push cur d) rest'
                else lex InDouble (push (push cur c) d) rest'
            end
          else if Ascii.eqb c "$" || Ascii.eqb c "`" then None
          else lex InDouble (push cur c) rest
      | Unquoted =>
          match classify c with
          | CSingle => lex InSingle (start cur) rest
          | CDouble => lex InDouble (start cur) rest
          | CBackslash =>
              match rest with
              | EmptyString => None
              | String d rest' =>
                  if Ascii.eqb d "010" then lex Unquoted cur rest'
                  else lex Unquoted (push cur d) rest'
              end
          | CBlank => flush cur (lex Unquoted None rest)
          | CNewline =>
              flush cur (emit (String c EmptyString) (lex Unquoted None rest))
          | COperator =>
              match rest with
              | EmptyString => flush cur (emit (String c EmptyString) (Some []))
              | String d rest' =>
                  if Ascii.eqb d c && doubles c
                  then flush cur (emit (String c (String d EmptyString))
                                       (lex Unquoted None rest'))
                  else flush cur (emit (String c EmptyString)
                                       (lex Unquoted None rest))
              end
          | CExpansion => None
          | COrdinary => lex Unquoted (push cur c) rest
          end
      end
  end.

(** The words and operators of a command line. *)
Definition tokens (s : string) : option (list token) := lex Unquoted None s.

End posix.

(** ** [airops/docker.py] *)

Module DockerRunFlag.

Definition detach : list string := ["-d"].
Definition interactive : list string := ["-i"].
Definition tty : list string := ["-t"].
Definition temp_container : list string := ["--rm"].
Definition name (name : string) : list string := ["--name"; name].

Definition publish (ports : PyDict.t string) : list string :=
  fold_left (fun arg '(p1, p2) => arg ++ ["-p"; p1 +:+ ":" +:+ p2])
            (PyDict.items ports) [].

Definition env (envs : PyDict.t string) : list string :=
  fold_left (fun arg '(name, value) => arg ++ ["-e"; name +:+ "=" +:+ value])
            (PyDict.items envs) [].

Definition volume (volume : PyDict.t string) : list string :=
  fold_left (fun arg '(p1, p2) => arg ++ ["-v"; p1 +:+ ":" +:+ p2])
            (PyDict.items volume) [].

End DockerRunFlag.

Module DockerBuildFlag.

Definition build_arg (envs : PyDict.t string) : list string :=
  fold_left
    (fun arg '(name, value) => arg ++ ["--build-arg"; name +:+ "=" +:+ value])
    (PyDict.items envs) [].

Definition file (f : string) : list string := ["-f"; f].
Definition no_cache : list string := ["--no-cache"].
Definition target (t : string) : list string := ["--target"; t].
Definition pull : list string := ["--pull"].
Definition platform (platform_name : string) : list string :=
  ["--platform"; platform_name].

End DockerBuildFlag.

Module Docker.

Record t : Type := {
  ssh_conn_id : string;
  _username : option string;
  _password : option string
}.

Definition __init__ (ssh_conn_id : string) (username password : option string)
  : t :=
  {| ssh_conn_id := ssh_conn_id; _username := username; _password := password |}.

Definition _login_command (self : t) : option string :=
  if Py.truthy (_username self) && Py.truthy (_password self) then
    (* both are strings in this branch *)
    let username := from_option id EmptyString (_username self) in
    let password := from_option id EmptyString (_password self) in
    let args := ["docker"; "login"; "-u"; username; "-p"; password] in
    let safe_args := map shlex.quote args in
    Some (Py.join " " safe_args)
  else None.

(** [if login_command: command = login_command + ' && ' + command] *)
Definition with_login (login_command : option string) (command : string)
  : string :=
  match login_command with
  | Some (String c l) => String c l +:+ " && " +:+ command
  | _ => command
  end.

Section executor.
(** The imported [SSHOperator] class, called with keyword arguments. *)
Context {H : Type} (SSHOperator : PyDict.t Py.value → Py.result H).

Definition _ssh (self : t) (command : string) (kwargs : PyDict.t Py.value)
  : Py.result H :=
  SSHOperator
    (PyDict.update
       (PyDict.of_list [("ssh_conn_id", Py.VStr (ssh_conn_id self));
                        ("command", Py.VStr command)])
       kwargs).

(** [self._ssh(command=command, **kwargs)] *)
Definition call_ssh (self : t) (command : string) (kwargs : PyDict.t Py.value)
  : Py.result H :=
  if Py.clashes ["self"; "command"] kwargs then Py.raise Py.TypeError
  else _ssh self command kwargs.

Definition run (self : t) (docker_flags : list string) (image_name : string)
    (app_args : option (list string)) (return_command : bool)
    (kwargs : PyDict.t Py.value) : Py.result (Py.returned H) :=
  let app_args := Py.or_list app_args in
  let args := ["docker"; "run"] ++ docker_flags ++ [image_name] ++ app_args in
  let safe_args := map shlex.quote args in
  let command := Py.join " " safe_args in
  let login_command := _login_command self in
  let command := with_login login_command command in
  if return_command then Py.ok (Py.Command command)
  else Py.bind (call_ssh self command kwargs) (fun h => Py.ok (Py.Handle h)).

Definition build (self : t) (image_name : string) (docker_flags : list string)
    (project_path : string) (return_command : bool)
    (kwargs : PyDict.t Py.value) : Py.result (Py.returned H) :=
  let args := ["docker"; "build"] ++ docker_flags
                ++ ["-t"; image_name; project_path] in
  let safe_args := map shlex.quote args in
  let command := Py.join " " safe_args in
  let login_command := _login_command self in
  let command := with_login login_command command in
  if return_command then Py.ok (Py.Command command)
  else Py.bind (call_ssh self command kwargs) (fun h => Py.ok (Py.Handle h)).

End executor.

(** Default of the [project_path] parameter. *)
Definition default_project_path : string := ".".

End Docker.

(** ** [airops/vcs.py] *)

Module GitCloneFlag.

Definition verbose : list string := ["--verbose"].
Definition branch (name : string) : list string := ["--branch"; name].

End GitCloneFlag.

Module Git.

(** [Git()] : the constructor body is [pass], the instance dictionary
    stays empty, and the class has no attribute of its own. *)
Definition __init__ : gmap string Py.value := ∅.

(** Defaults of the [directory] and [flags] parameters. *)
Definition default_directory : string := ".".
Definition default_flags : option (list string) := None.

Section executor.
Context {H : Type} (SSHOperator : PyDict.t Py.value → Py.result H).

Definition _ssh (self : gmap string Py.value) (command : string)
    (kwargs : PyDict.t Py.value) : Py.result H :=
  Py.bind (Py.getattr self "ssh_conn_id") (fun conn =>
    SSHOperator
      (PyDict.update
         (PyDict.of_list [("ssh_conn_id", conn); ("command", Py.VStr command)])
         kwargs)).

Definition call_ssh (self : gmap string Py.value) (command : string)
    (kwargs : PyDict.t Py.value) : Py.result H :=
  if Py.clashes ["self"; "command"] kwargs then Py.raise Py.TypeError
  else _ssh self command kwargs.

(** [*flags] with [flags] left at its default [None] is a [TypeError]. *)
Definition clone (self : gmap string Py.value) (repository_url : string)
    (directory : string) (flags : option (list string))
    (return_command : bool) (kwargs : PyDict.t Py.value)
  : Py.result (Py.returned H) :=
  match flags with
  | None => Py.raise Py.TypeError
  | Some flags =>
      let args := ["git"; "clone"] ++ flags ++ [repository_url; directory] in
      let safe_args := map shlex.quote args in
      let command := Py.join " " safe_args in
      if return_command then Py.ok (Py.Command command)
      else Py.bind (call_ssh self command kwargs)
                   (fun h => Py.ok (Py.Handle h))
  end.

End executor.

End Git.

(** ** Reference formats of the specification

    What the specification promises, written independently of the code:
    the text of the login command, the flag list of a map builder, and
    the words a shell must see in a finished command line. *)

Module Spec.

(** [docker login -u <user> -p <password>], each token quoted. *)
Definition login_line (user password : string) : string :=
  Py.join " " (map shlex.quote ["docker"; "login"; "-u"; user; "-p"; password]).

(** One (flag, value) pair per entry, in the order of the entries. *)
Definition flag_pairs (flag sep : string) (entries : list (string * string))
  : list string :=
  concat (map (λ kv, [flag; fst kv +:+ sep +:+ snd kv]) entries).

(** The words the shell must see: with usable credentials the six words
    of the login command and the [&&] operator, then the tokens of the
    command itself, each as one literal word. *)
Definition shell_view (self : Docker.t) (args : list string)
  : list posix.token :=
  match Docker._username self, Docker._password self with
  | Some (String a u), Some (String b p) =>
      map posix.TWord ["docker"; "login"; "-u"; String a u; "-p"; String b p]
        ++ [posix.TOp "&&"] ++ map posix.TWord args
  | _, _ => map posix.TWord args
  end.

(** The argument vectors of the three commands. *)
Definition run_args (docker_flags : list string) (image_name : string)
    (app_args : list string) : list string :=
  "docker" :: "run" :: docker_flags ++ image_name :: app_args.

Definition build_args (docker_flags : list string) (image_name : string)
    (project_path : string) : list string :=
  "docker" :: "build" :: docker_flags ++ ["-t"; image_name; project_path].

Definition clone_args (flags : list string) (repository_url directory : string)
  : list string :=
  "git" :: "clone" :: flags ++ [repository_url; directory].

(** A token [shlex.quote] leaves as it is: not empty, safe characters only. *)
Definition plain (s : string) : bool :=
  match s with
  | EmptyString => false
  | String _ _ => shlex.all_safe s
  end.

End Spec.

(** * Properties *)

(** ** Strings *)

Section string_facts.

Lemma app_cons (c : ascii) (s t : string) :
  String c s +:+ t = String c (s +:+ t).
Proof. reflexivity. Qed.

Lemma app_empty_l (s : string) : EmptyString +:+ s = s.
Proof. reflexivity. Qed.

Lemma app_empty_r (s : string) : s +:+ EmptyString = s.
Proof. induction s as [|c s IH]; [reflexivity|]. by rewrite app_cons, IH. Qed.

Lemma app_assoc_str (s t u : string) : (s +:+ t) +:+ u = s +:+ (t +:+ u).
Proof.
  induction s as [|c s IH]; [reflexivity|]. by rewrite !app_cons, IH.
Qed.

Lemma app_snoc (w : string) (c : ascii) (s : string) :
  (w +:+ String c EmptyString) +:+ s = w +:+ String c s.
Proof. by rewrite app_assoc_str. Qed.

End string_facts.

(** ** Quoting against the shell lexer *)

Section quoting.

Import posix.

Lemma is_safe_ordinary (c : ascii) :
  shlex.is_safe_char c = true → classify c = COrdinary.
Proof.
  destruct c as [b0 b1 b2 b3 b4 b5 b6 b7].
  destruct b0, b1, b2, b3, b4, b5, b6, b7; vm_compute; congruence.
Qed.

Lemma push_some (w : string) (c : ascii) :
  push (Some w) c = Some (w +:+ String c EmptyString).
Proof. reflexivity. Qed.

(** A run of safe characters extends the word in progress. *)
Lemma lex_safe (s : string) : ∀ (cur : option string) (rest : string),
  shlex.all_safe s = true →
  s ≠ EmptyString ∨ is_Some cur →
  lex Unquoted cur (s +:+ rest)
  = lex Unquoted (Some (from_option id EmptyString cur +:+ s)) rest.
Proof.
  induction s as [|c s IH]; intros cur rest Hs Hne.
  - destruct Hne as [?|[w ->]]; [done|]. simpl. by rewrite app_empty_r.
  - simpl in Hs. apply andb_prop in Hs as [Hc Hs].
    rewrite app_cons. cbn [lex]. rewrite (is_safe_ordinary c Hc).
    rewrite IH by (auto; right; eexists; reflexivity).
    unfold push. cbn [from_option id]. by rewrite app_snoc.
Qed.

(** Inside single quotes, the escaped image of [s] followed by the
    closing quote reads back as [s] appended to the word in progress. *)
Lemma lex_single_body (s : string) : ∀ (w rest : string),
  lex InSingle (Some w)
      (Py.replace "'" shlex.squote_escape s +:+ String "'" rest)
  = lex Unquoted (Some (w +:+ s)) rest.
Proof.
  induction s as [|c s IH]; intros w rest.
  - cbn. by rewrite app_empty_r.
  - cbn [Py.replace]. destruct (Ascii.eqb c "'") eqn:Hc.
    + apply Ascii.eqb_eq in Hc as ->.
      unfold shlex.squote_escape. rewrite !app_cons, app_empty_l.
      cbn. rewrite <- (app_snoc w "'" s). exact (IH _ rest).
    + rewrite app_cons. cbn [lex]. rewrite Hc, push_some, IH.
      by rewrite app_snoc.
Qed.

(** The lexer reads a quoted token as the token, whatever follows. *)
Lemma lex_quote (s rest : string) :
  lex Unquoted None (shlex.quote s +:+ rest) = lex Unquoted (Some s) rest.
Proof.
  destruct s as [|c s]; [reflexivity|].
  unfold shlex.quote. destruct (shlex.all_safe (String c s)) eqn:Hs.
  - rewrite lex_safe by (auto; left; discriminate). reflexivity.
  - rewrite app_assoc_str, app_cons, app_empty_l. cbn [lex].
    change (classify "'") with CSingle. cbv iota.
    rewrite app_assoc_str, app_cons, app_empty_l.
    exact (lex_single_body (String c s) EmptyString rest).
Qed.

Lemma lex_word_end (w : string) : lex Unquoted (Some w) EmptyString = Some [TWord w].
Proof. reflexivity. Qed.

Lemma lex_word_blank (w rest : string) :
  lex Unquoted (Some w) (" " +:+ rest) = cons (TWord w) <$> lex Unquoted None rest.
Proof. reflexivity. Qed.

Lemma lex_word_and_then (w rest : string) :
  lex Unquoted (Some w) (" && " +:+ rest)
  = (λ l, TWord w :: TOp "&&" :: l) <$> lex Unquoted None rest.
Proof.
  change (" && " +:+ rest)
    with (String " " (String "&" (String "&" (String " " rest)))).
  cbn. destruct (lex Unquoted None rest); reflexivity.
Qed.

(** Space-joined quoted tokens read back as the tokens, one word each;
    [k] is what the lexer makes of the text after the last token. *)
Lemma lex_join (args : list string) : ∀ (a : string) (tail : string)
    (k : option (list token)),
  (∀ w, lex Unquoted (Some w) tail = cons (TWord w) <$> k) →
  lex Unquoted None (Py.join " " (map shlex.quote (a :: args)) +:+ tail)
  = app (map TWord (a :: args)) <$> k.
Proof.
  induction args as [|b args IH]; intros a tail k Hk.
  - cbn [map Py.join]. rewrite lex_quote, Hk. by destruct k.
  - change (Py.join " " (map shlex.quote (a :: b :: args)))
      with (shlex.quote a +:+ " " +:+ Py.join " " (map shlex.quote (b :: args))).
    rewrite !app_assoc_str, lex_quote, lex_word_blank.
    rewrite (IH b tail k Hk). by destruct k.
Qed.

End quoting.

(** ** The assembled commands *)

Section commands.

Lemma login_command_some (self : Docker.t) (u p : string) :
  Docker._username self = Some u → Docker._password self = Some p →
  u ≠ EmptyString → p ≠ EmptyString →
  Docker._login_command self = Some (Spec.login_line u p).
Proof.
  intros Hu Hp Hu' Hp'. unfold Docker._login_command. rewrite Hu, Hp.
  destruct u; [done|]. destruct p; [done|]. reflexivity.
Qed.

Lemma login_command_none (self : Docker.t) :
  Py.truthy (Docker._username self) && Py.truthy (Docker._password self) = false →
  Docker._login_command self = None.
Proof. intros Hf. unfold Docker._login_command. by rewrite Hf. Qed.

Lemma login_line_nonempty (u p : string) :
  ∃ c l, Spec.login_line u p = String c l.
Proof.
  unfold Spec.login_line. cbn [map Py.join].
  change (shlex.quote "docker") with "docker". by eexists _, _.
Qed.

(** The words of a command without a login prefix. *)
Lemma tokens_plain (a : string) (args : list string) :
  posix.tokens (Py.join " " (map shlex.quote (a :: args)))
  = Some (map posix.TWord (a :: args)).
Proof.
  unfold posix.tokens.
  rewrite <- (app_empty_r (Py.join _ _)).
  rewrite (lex_join args a EmptyString (Some [])) by done.
  cbn [fmap option_fmap option_map]. by rewrite app_nil_r.
Qed.

(** The words of a command after the optional login prefix. *)
Lemma tokens_with_login (self : Docker.t) (a : string) (args : list string) :
  posix.tokens (Docker.with_login (Docker._login_command self)
                  (Py.join " " (map shlex.quote (a :: args))))
  = Some (Spec.shell_view self (a :: args)).
Proof.
  pose proof (tokens_plain a args) as Hplain.
  unfold Docker._login_command, Spec.shell_view.
  destruct (Docker._username self) as [[|c u]|]; try exact Hplain;
    destruct (Docker._password self) as [[|d p]|]; try exact Hplain.
  cbn [Py.truthy andb from_option id].
  fold (Spec.login_line (String c u) (String d p)).
  destruct (login_line_nonempty (String c u) (String d p)) as (x & l & Hl).
  rewrite Hl. cbn [Docker.with_login]. rewrite <- Hl.
  unfold posix.tokens, Spec.login_line.
  rewrite (lex_join _ "docker" _
             ((λ l, posix.TOp "&&" :: l)
                <$> posix.lex posix.Unquoted None
                      (Py.join " " (map shlex.quote (a :: args))))).
  - fold (posix.tokens (Py.join " " (map shlex.quote (a :: args)))).
    rewrite Hplain. reflexivity.
  - intros w. rewrite lex_word_and_then.
    by destruct (posix.lex _ _ _).
Qed.

End commands.

(** ** Map builders *)

Section builders.

(** The accumulating loop [for k, v in d.items(): arg += [flag, k sep v]]. *)
Lemma loop_flag_pairs (flag sep : string) (entries : list (string * string)) :
  ∀ acc : list string,
    fold_left (λ arg '(k, v), arg ++ [flag; k +:+ sep +:+ v]) entries acc
    = acc ++ Spec.flag_pairs flag sep entries.
Proof.
  induction entries as [|[k v] entries IH]; intros acc.
  - cbn. by rewrite app_nil_r.
  - cbn [fold_left]. rewrite IH. unfold Spec.flag_pairs.
    cbn [map concat fst snd]. by rewrite <- app_assoc.
Qed.

Lemma flag_pairs_length (flag sep : string) (entries : list (string * string)) :
  length (Spec.flag_pairs flag sep entries) = 2 * length entries.
Proof.
  induction entries as [|kv entries IH]; [reflexivity|].
  unfold Spec.flag_pairs in *. cbn [map concat]. rewrite length_app, IH.
  cbn [length]. lia.
Qed.

(** A dictionary yields its entries in insertion order: inserting pairs
    with distinct keys one after the other gives back that list. *)
Lemma setitem_fresh {V : Type} (k : string) (v : V) (d : PyDict.t V) :
  k ∉ d.*1 → PyDict.setitem k v d = d ++ [(k, v)].
Proof.
  induction d as [|[k' v'] d IH]; intros Hk; [reflexivity|].
  cbn [fmap list_fmap fst] in Hk. apply not_elem_of_cons in Hk as [Hne Hk].
  cbn [PyDict.setitem]. destruct (String.eqb_spec k' k) as [->|_]; [done|].
  by rewrite IH.
Qed.

Lemma update_fresh {V : Type} (other : PyDict.t V) : ∀ d : PyDict.t V,
  NoDup (d.*1 ++ other.*1) → PyDict.update d other = d ++ other.
Proof.
  induction other as [|[k v] other IH]; intros d Hnd.
  - cbn. by rewrite app_nil_r.
  - unfold PyDict.update in *. cbn [fold_left fst snd].
    cbn [fmap list_fmap fst] in Hnd.
    rewrite setitem_fresh.
    + rewrite IH; [by rewrite <- app_assoc|].
      rewrite fmap_app. cbn [fmap list_fmap fst]. by rewrite <- app_assoc.
    + apply NoDup_app in Hnd as (_ & Hd & _). intros Hin.
      apply (Hd k Hin). left.
Qed.

Lemma of_list_distinct_keys {V : Type} (kvs : list (string * V)) :
  NoDup kvs.*1 → PyDict.items (PyDict.of_list kvs) = kvs.
Proof.
  intros Hnd. unfold PyDict.items, PyDict.of_list.
  exact (update_fresh kvs [] Hnd).
Qed.

End builders.

(** * The claims *)

(** C1: shell-quoting is total and round-trip safe.  For every string, the
    shell lexer reads the quoted string as exactly one word, and that word
    is the original string; the empty string quotes to two single quotes. *)
Theorem quote_round_trip :
  (∀ s : string, posix.tokens (shlex.quote s) = Some [posix.TWord s])
  ∧ shlex.quote EmptyString = "''".
Proof.
  split; [|reflexivity]. intros s. unfold posix.tokens.
  rewrite <- (app_empty_r (shlex.quote s)). by rewrite lex_quote.
Qed.

(** C2: every token that reaches the command string is escaped exactly
    once and nothing is interpolated raw.  For [run], [build] and [clone]
    the command that is returned, and the same command when it is handed
    to the SSH operator instead, is the space-joined list of the quoted
    argument vector after the optional login prefix, and the shell reads
    it back as exactly the unquoted arguments, one word each; a map entry
    reaches the shell as the single word key, separator, value. *)
Theorem tokens_escaped_once {H : Type}
    (SSHOperator : PyDict.t Py.value → Py.result H) :
  (∀ self docker_flags image_name app_args kwargs, ∃ command,
      command = Docker.with_login (Docker._login_command self)
                  (Py.join " " (map shlex.quote
                     (Spec.run_args docker_flags image_name (Py.or_list app_args))))
      ∧ Docker.run SSHOperator self docker_flags image_name app_args true kwargs
        = Py.ok (Py.Command command)
      ∧ Docker.run SSHOperator self docker_flags image_name app_args false kwargs
        = Py.bind (Docker.call_ssh SSHOperator self command kwargs)
                  (λ h, Py.ok (Py.Handle h))
      ∧ posix.tokens command
        = Some (Spec.shell_view self
                  (Spec.run_args docker_flags image_name (Py.or_list app_args))))
  ∧ (∀ self image_name docker_flags project_path kwargs, ∃ command,
      command = Docker.with_login (Docker._login_command self)
                  (Py.join " " (map shlex.quote
                     (Spec.build_args docker_flags image_name project_path)))
      ∧ Docker.build SSHOperator self image_name docker_flags project_path true kwargs
        = Py.ok (Py.Command command)
      ∧ Docker.build SSHOperator self image_name docker_flags project_path false kwargs
        = Py.bind (Docker.call_ssh SSHOperator self command kwargs)
                  (λ h, Py.ok (Py.Handle h))
      ∧ posix.tokens command
        = Some (Spec.shell_view self
                  (Spec.build_args docker_flags image_name project_path)))
  ∧ (∀ self repository_url directory flags kwargs, ∃ command,
      command = Py.join " " (map shlex.quote
                               (Spec.clone_args flags repository_url directory))
      ∧ Git.clone SSHOperator self repository_url directory (Some flags) true kwargs
        = Py.ok (Py.Command command)
      ∧ Git.clone SSHOperator self repository_url directory (Some flags) false kwargs
        = Py.bind (Git.call_ssh SSHOperator self command kwargs)
                  (λ h, Py.ok (Py.Handle h))
      ∧ posix.tokens command
        = Some (map posix.TWord (Spec.clone_args flags repository_url directory)))
  ∧ (∀ conn image_name key value kwargs, ∃ command,
      Docker.run SSHOperator (Docker.__init__ conn None None)
                 (DockerRunFlag.env [(key, value)]) image_name None true kwargs
        = Py.ok (Py.Command command)
      ∧ posix.tokens command
        = Some (map posix.TWord
                  ["docker"; "run"; "-e"; key +:+ "=" +:+ value; image_name])).
Proof.
  repeat split.
  - intros. eexists. split; [reflexivity|]. repeat split.
    apply tokens_with_login.
  - intros. eexists. split; [reflexivity|]. repeat split.
    apply tokens_with_login.
  - intros. eexists. split; [reflexivity|]. repeat split.
    apply tokens_plain.
  - intros. eexists. split; [reflexivity|].
    exact (tokens_with_login (Docker.__init__ conn None None) "docker"
             ["run"; "-e"; key +:+ "=" +:+ value; image_name]).
Qed.

(** C3, as amended: when the username and the password are both non-empty
    strings, [run] and [build] with [return_command] true return the login
    command, each of its tokens quoted, then [ && ], then the assembled
    command. *)
Theorem login_prefix_when_credentials_nonempty {H : Type}
    (SSHOperator : PyDict.t Py.value → Py.result H)
    (self : Docker.t) (user password : string) :
  Docker._username self = Some user →
  Docker._password self = Some password →
  user ≠ EmptyString → password ≠ EmptyString →
  (∀ docker_flags image_name app_args kwargs,
      Docker.run SSHOperator self docker_flags image_name app_args true kwargs
      = Py.ok (Py.Command
                 (Spec.login_line user password +:+ " && "
                  +:+ Py.join " " (map shlex.quote
                        (Spec.run_args docker_flags image_name
                           (Py.or_list app_args))))))
  ∧ (∀ image_name docker_flags project_path kwargs,
      Docker.build SSHOperator self image_name docker_flags project_path true kwargs
      = Py.ok (Py.Command
                 (Spec.login_line user password +:+ " && "
                  +:+ Py.join " " (map shlex.quote
                        (Spec.build_args docker_flags image_name project_path))))).
Proof.
  intros Hu Hp Hu' Hp'.
  pose proof (login_command_some self user password Hu Hp Hu' Hp') as Hl.
  destruct (login_line_nonempty user password) as (c & l & Hc).
  split; intros; unfold Docker.run, Docker.build; cbv zeta;
    rewrite Hl, Hc; reflexivity.
Qed.

(** C3, as amended, at a component with a username and a password that
    needs quoting. *)
Lemma login_prefix_witness :
  Docker.run (H := unit) (λ _, Py.raise (Py.OperatorError "no task_id"))
    (Docker.__init__ "my_ssh_connection" (Some "myuser") (Some "my password"))
    (DockerRunFlag.temp_container ++ DockerRunFlag.name "x") "img" None true []
  = Py.ok (Py.Command
             "docker login -u myuser -p 'my password' && docker run --rm --name x img").
Proof.
  exact (proj1 (login_prefix_when_credentials_nonempty
                  (λ _, Py.raise (Py.OperatorError "no task_id"))
                  (Docker.__init__ "my_ssh_connection" (Some "myuser")
                                   (Some "my password"))
                  "myuser" "my password" eq_refl eq_refl
                  ltac:(discriminate) ltac:(discriminate))
               (DockerRunFlag.temp_container ++ DockerRunFlag.name "x")
               "img" None []).
Defined.

(** C3, as stated, fails: a username set to the empty string is set, yet
    the command comes back without the login command in front. *)
Lemma login_prefix_counterexample :
  Docker._username (Docker.__init__ "conn" (Some EmptyString) (Some "secret"))
    = Some EmptyString
  ∧ Docker._password (Docker.__init__ "conn" (Some EmptyString) (Some "secret"))
    = Some "secret"
  ∧ Docker.run (H := unit) (λ _, Py.raise (Py.OperatorError "no task_id"))
      (Docker.__init__ "conn" (Some EmptyString) (Some "secret"))
      [] "img" None true []
    = Py.ok (Py.Command "docker run img")
  ∧ ¬ (∃ rest : string,
         Docker.run (H := unit) (λ _, Py.raise (Py.OperatorError "no task_id"))
           (Docker.__init__ "conn" (Some EmptyString) (Some "secret"))
           [] "img" None true []
         = Py.ok (Py.Command
                    (Spec.login_line EmptyString "secret" +:+ " && " +:+ rest))).
Proof.
  repeat split. intros [rest Hr]. vm_compute in Hr. discriminate Hr.
Qed.

(** C4: for every map given to [env], [build_arg], [publish] or [volume],
    the flag list is one (flag, value) pair per entry, in the order in
    which the map yields its entries, and hence has twice as many tokens
    as the map has entries. *)
Theorem map_builders_pair_per_entry (M : PyDict.t string) :
  (DockerRunFlag.env M = Spec.flag_pairs "-e" "=" (PyDict.items M)
   ∧ length (DockerRunFlag.env M) = 2 * PyDict.len M)
  ∧ (DockerBuildFlag.build_arg M = Spec.flag_pairs "--build-arg" "=" (PyDict.items M)
     ∧ length (DockerBuildFlag.build_arg M) = 2 * PyDict.len M)
  ∧ (DockerRunFlag.publish M = Spec.flag_pairs "-p" ":" (PyDict.items M)
     ∧ length (DockerRunFlag.publish M) = 2 * PyDict.len M)
  ∧ (DockerRunFlag.volume M = Spec.flag_pairs "-v" ":" (PyDict.items M)
     ∧ length (DockerRunFlag.volume M) = 2 * PyDict.len M).
Proof.
  unfold DockerRunFlag.env, DockerBuildFlag.build_arg, DockerRunFlag.publish,
    DockerRunFlag.volume, PyDict.len.
  rewrite !loop_flag_pairs. cbn [app].
  repeat split; apply flag_pairs_length.
Qed.

(** C5: [build] lays its command out as [docker build <flags> -t
    <image_name> <project_path>]: the shell sees the flags, then [-t], the
    image name and the project path as the last three words; and without
    credentials the build of [my_image] with one build argument returns
    exactly [docker build --build-arg arg1=value1 -t my_image .]. *)
Theorem build_layout {H : Type} (SSHOperator : PyDict.t Py.value → Py.result H) :
  (∀ self image_name docker_flags project_path kwargs, ∃ command,
      Docker.build SSHOperator self image_name docker_flags project_path true kwargs
      = Py.ok (Py.Command command)
      ∧ command
        = Docker.with_login (Docker._login_command self)
            (Py.join " " (map shlex.quote
               (["docker"; "build"] ++ docker_flags
                  ++ ["-t"; image_name; project_path])))
      ∧ posix.tokens command
        = Some (Spec.shell_view self
                  (["docker"; "build"] ++ docker_flags
                     ++ ["-t"; image_name; project_path])))
  ∧ (∀ conn kwargs,
      Docker.build SSHOperator (Docker.__init__ conn None None) "my_image"
        (DockerBuildFlag.build_arg (PyDict.of_list [("arg1", "value1")]))
        "." true kwargs
      = Py.ok (Py.Command "docker build --build-arg arg1=value1 -t my_image .")).
Proof.
  split.
  - intros. eexists. split; [reflexivity|]. split; [reflexivity|].
    apply tokens_with_login.
  - intros. reflexivity.
Qed.

(** C6: without credentials, [run] with the flags [temp_container() +
    name('x')], image [img] and no application arguments returns exactly
    [docker run --rm --name x img], with no login prefix. *)
Theorem run_without_credentials {H : Type}
    (SSHOperator : PyDict.t Py.value → Py.result H) (conn : string)
    (kwargs : PyDict.t Py.value) :
  Docker.run SSHOperator (Docker.__init__ conn None None)
    (DockerRunFlag.temp_container ++ DockerRunFlag.name "x") "img" None true kwargs
  = Py.ok (Py.Command "docker run --rm --name x img").
Proof. reflexivity. Qed.

(** C7 (the code at the failing input): [clone] called with [flags] left
    at its default raises [TypeError], whatever the other arguments. *)
Theorem clone_default_flags_raises {H : Type}
    (SSHOperator : PyDict.t Py.value → Py.result H)
    (self : gmap string Py.value) (repository_url directory : string)
    (return_command : bool) (kwargs : PyDict.t Py.value) :
  Git.clone SSHOperator self repository_url directory Git.default_flags
    return_command kwargs
  = Py.raise Py.TypeError.
Proof. reflexivity. Qed.

(** C8: [clone] of [https://example/repo.git] with an explicitly empty
    flag list, the default directory and [return_command] true returns
    exactly [git clone https://example/repo.git .]. *)
Theorem clone_empty_flags {H : Type}
    (SSHOperator : PyDict.t Py.value → Py.result H)
    (self : gmap string Py.value) (kwargs : PyDict.t Py.value) :
  Git.clone SSHOperator self "https://example/repo.git" Git.default_directory
    (Some []) true kwargs
  = Py.ok (Py.Command "git clone https://example/repo.git .").
Proof. reflexivity. Qed.

(** C9: on a [Git] object as its constructor leaves it, [clone] with
    [return_command] false never returns a handle: for every input it
    raises, with [TypeError] when the flags are missing or a keyword is
    repeated and otherwise with [AttributeError] from reading the
    connection identifier that was never stored; the SSH operator is not
    reached. *)
Theorem clone_execute_always_fails {H : Type}
    (SSHOperator : PyDict.t Py.value → Py.result H)
    (repository_url directory : string) (flags : option (list string))
    (kwargs : PyDict.t Py.value) :
  Py.getattr Git.__init__ "ssh_conn_id" = Py.raise Py.AttributeError
  ∧ (∀ h : H,
       Git.clone SSHOperator Git.__init__ repository_url directory flags false kwargs
       ≠ Py.ok (Py.Handle h))
  ∧ Git.clone SSHOperator Git.__init__ repository_url directory flags false kwargs
    = Py.raise (if bool_decide (flags = None) || Py.clashes ["self"; "command"] kwargs
                then Py.TypeError else Py.AttributeError).
Proof.
  assert (Hget : Py.getattr Git.__init__ "ssh_conn_id" = Py.raise Py.AttributeError)
    by reflexivity.
  assert (Hres : Git.clone SSHOperator Git.__init__ repository_url directory flags
                   false kwargs
                 = Py.raise (if bool_decide (flags = None)
                                || Py.clashes ["self"; "command"] kwargs
                             then Py.TypeError else Py.AttributeError)).
  { destruct flags as [flags|]; [|reflexivity].
    unfold Git.clone, Git.call_ssh. cbv zeta.
    rewrite bool_decide_eq_false_2 by discriminate. cbn [orb].
    destruct (Py.clashes _ kwargs); [reflexivity|].
    unfold Git._ssh. rewrite Hget. reflexivity. }
  split; [exact Hget|]. split; [|exact Hres].
  intros h. rewrite Hres. discriminate.
Qed.

(** C10: when the username or the password is the empty string, or one of
    them is missing, there is no login command, and [run] and [build] with
    [return_command] true return the bare assembled command, the same
    string a component without credentials returns. *)
Theorem unusable_credentials_like_absent {H : Type}
    (SSHOperator : PyDict.t Py.value → Py.result H) (self : Docker.t) :
  Docker._username self = Some EmptyString
  ∨ Docker._password self = Some EmptyString
  ∨ Docker._username self = None
  ∨ Docker._password self = None →
  Docker._login_command self = None
  ∧ (∀ docker_flags image_name app_args kwargs,
       Docker.run SSHOperator self docker_flags image_name app_args true kwargs
       = Py.ok (Py.Command
                  (Py.join " " (map shlex.quote
                     (Spec.run_args docker_flags image_name (Py.or_list app_args)))))
       ∧ Docker.run SSHOperator self docker_flags image_name app_args true kwargs
         = Docker.run SSHOperator
             (Docker.__init__ (Docker.ssh_conn_id self) None None)
             docker_flags image_name app_args true kwargs)
  ∧ (∀ image_name docker_flags project_path kwargs,
       Docker.build SSHOperator self image_name docker_flags project_path true kwargs
       = Py.ok (Py.Command
                  (Py.join " " (map shlex.quote
                     (Spec.build_args docker_flags image_name project_path))))
       ∧ Docker.build SSHOperator self image_name docker_flags project_path true kwargs
         = Docker.build SSHOperator
             (Docker.__init__ (Docker.ssh_conn_id self) None None)
             image_name docker_flags project_path true kwargs).
Proof.
  intros Hcred.
  assert (Hnone : Docker._login_command self = None).
  { apply login_command_none.
    destruct Hcred as [Hc|[Hc|[Hc|Hc]]]; rewrite Hc; cbn [Py.truthy andb];
      [reflexivity| |reflexivity|]; apply andb_false_r. }
  split; [exact Hnone|].
  split; intros; unfold Docker.run, Docker.build; cbv zeta; rewrite Hnone;
    split; reflexivity.
Qed.

(** C10 at a component whose username is the empty string. *)
Lemma unusable_credentials_witness :
  Docker._login_command (Docker.__init__ "conn" (Some EmptyString) (Some "secret"))
  = None
  ∧ Docker.build (H := unit) (λ _, Py.raise (Py.OperatorError "no task_id"))
      (Docker.__init__ "conn" (Some EmptyString) (Some "secret"))
      "my_image" DockerBuildFlag.pull "." true []
    = Py.ok (Py.Command "docker build --pull -t my_image .").
Proof.
  pose (W := unusable_credentials_like_absent (H := unit)
               (λ _, Py.raise (Py.OperatorError "no task_id"))
               (Docker.__init__ "conn" (Some EmptyString) (Some "secret"))
               (or_introl eq_refl)).
  split.
  - exact (proj1 W).
  - exact (proj1 (proj2 (proj2 W) "my_image" DockerBuildFlag.pull "." [])).
Defined.

(** ** Further checks of the model *)

(** The lexer tells quoted from unquoted text: unquoted blanks split
    words, an unquoted dollar sign or an open quote is not a literal word,
    and quoting twice does not read back as the original. *)
Example lexer_discriminates :
  posix.tokens "a b" = Some [posix.TWord "a"; posix.TWord "b"]
  ∧ posix.tokens "$HOME" = None
  ∧ posix.tokens "it's" = None
  ∧ posix.tokens "x; rm -rf /"
    = Some [posix.TWord "x"; posix.TOp ";"; posix.TWord "rm"; posix.TWord "-rf";
            posix.TWord "/"]
  ∧ posix.tokens (shlex.quote (shlex.quote "a b")) = Some [posix.TWord "'a b'"]
  ∧ shlex.quote "x; rm -rf /" = "'x; rm -rf /'"
  ∧ shlex.quote "it's" = String "'" ("it" +:+ shlex.squote_escape +:+ "s'").
Proof. repeat split. Qed.

(** With the connection identifier present in the instance dictionary the
    execute branch of [clone] does reach the SSH operator, with the
    command under the [command] keyword. *)
Example clone_execute_with_attribute :
  Git.clone (H := PyDict.t Py.value) (λ kw, Py.ok kw)
    (<["ssh_conn_id" := Py.VStr "my_ssh_connection"]> Git.__init__)
    "https://example/repo.git" Git.default_directory
    (Some GitCloneFlag.verbose) false [("task_id", Py.VStr "clone")]
  = Py.ok (Py.Handle [("ssh_conn_id", Py.VStr "my_ssh_connection");
                      ("command",
                       Py.VStr "git clone --verbose https://example/repo.git .");
                      ("task_id", Py.VStr "clone")]).
Proof. reflexivity. Qed.

(** An empty branch name still yields a two-token flag whose value is the
    quoted empty string, and the shell reads it back as an empty word. *)
Example clone_empty_branch {H : Type}
    (SSHOperator : PyDict.t Py.value → Py.result H)
    (self : gmap string Py.value) (kwargs : PyDict.t Py.value) :
  Git.clone SSHOperator self "https://example/repo.git" Git.default_directory
    (Some (GitCloneFlag.branch EmptyString)) true kwargs
  = Py.ok (Py.Command "git clone --branch '' https://example/repo.git .")
  ∧ posix.tokens "git clone --branch '' https://example/repo.git ."
    = Some (map posix.TWord
              ["git"; "clone"; "--branch"; EmptyString;
               "https://example/repo.git"; "."]).
Proof. split; reflexivity. Qed.

(** * Further properties of the code *)

(** ** The keyword dictionary handed to the SSH operator *)

Section operator_arguments.

Context {V : Type}.
Implicit Types (d other : PyDict.t V) (k : string) (v : V).

Lemma get_setitem_eq k v d : PyDict.get k (PyDict.setitem k v d) = Some v.
Proof.
  induction d as [|[k' v'] d IH]; cbn [PyDict.setitem PyDict.get].
  - by rewrite String.eqb_refl.
  - destruct (String.eqb k' k) eqn:Hk; cbn [PyDict.get]; by rewrite Hk.
Qed.

Lemma get_setitem_ne k k0 v d :
  k0 ≠ k → PyDict.get k (PyDict.setitem k0 v d) = PyDict.get k d.
Proof.
  intros Hne. induction d as [|[k' v'] d IH]; cbn [PyDict.setitem PyDict.get].
  - by destruct (String.eqb_spec k0 k).
  - destruct (String.eqb_spec k' k0) as [->|_]; cbn [PyDict.get].
    + by destruct (String.eqb_spec k0 k).
    + by rewrite IH.
Qed.

Lemma get_absent k d : k ∉ d.*1 → PyDict.get k d = None.
Proof.
  induction d as [|[k' v'] d IH]; [done|]. cbn [fmap list_fmap fst PyDict.get].
  intros [Hne Hk]%not_elem_of_cons.
  destruct (String.eqb_spec k' k) as [->|_]; [done|]. by apply IH.
Qed.

Lemma get_present k d : k ∈ d.*1 → is_Some (PyDict.get k d).
Proof.
  induction d as [|[k' v'] d IH]; cbn [fmap list_fmap fst PyDict.get].
  - by intros ?%elem_of_nil.
  - intros [->|Hk]%elem_of_cons.
    + rewrite String.eqb_refl. by eexists.
    + destruct (String.eqb k' k); [by eexists|by apply IH].
Qed.

(** Later entries win: the merged dictionary answers with the entry of
    [other] when there is one, else with that of [d]. *)
Lemma get_update other : ∀ d k,
  NoDup other.*1 →
  PyDict.get k (PyDict.update d other)
  = from_option Some (PyDict.get k d) (PyDict.get k other).
Proof.
  induction other as [|[k0 v0] other IH]; intros d k Hnd; [reflexivity|].
  cbn [fmap list_fmap fst] in Hnd. apply NoDup_cons in Hnd as [Hk0 Hnd].
  unfold PyDict.update in *. cbn [fold_left fst snd].
  rewrite (IH _ k Hnd). cbn [PyDict.get].
  destruct (String.eqb_spec k0 k) as [->|Hne].
  - rewrite (get_absent k other Hk0). cbn. apply get_setitem_eq.
  - destruct (PyDict.get k other); [reflexivity|]. cbn.
    by apply get_setitem_ne.
Qed.

End operator_arguments.

Section execute_branch.

Lemma clashes_true (names : list string) (kwargs : PyDict.t Py.value) (n : string) :
  n ∈ names → n ∈ kwargs.*1 → Py.clashes names kwargs = true.
Proof.
  intros Hn Hk. unfold Py.clashes. apply existsb_exists.
  apply list_elem_of_fmap in Hk as ([k v] & -> & Hin).
  exists (k, v). split; [by apply list_elem_of_In|].
  apply existsb_exists. exists k. split; [by apply list_elem_of_In|].
  apply String.eqb_refl.
Qed.

Lemma clashes_false (names : list string) (kwargs : PyDict.t Py.value) (n : string) :
  Py.clashes names kwargs = false → n ∈ names → n ∉ kwargs.*1.
Proof.
  intros Hf Hn Hk. by rewrite (clashes_true names kwargs n Hn Hk) in Hf.
Qed.

(** What the operator is called with: the command under [command], the
    connection under [ssh_conn_id] unless the caller's keywords carry
    their own, and every keyword of the caller. *)
Lemma operator_kwargs_lookup (conn : Py.value) (command : string)
    (kwargs : PyDict.t Py.value) :
  NoDup kwargs.*1 →
  Py.clashes ["self"; "command"] kwargs = false →
  PyDict.get "command"
    (PyDict.update (PyDict.of_list [("ssh_conn_id", conn);
                                    ("command", Py.VStr command)]) kwargs)
  = Some (Py.VStr command)
  ∧ PyDict.get "ssh_conn_id"
      (PyDict.update (PyDict.of_list [("ssh_conn_id", conn);
                                      ("command", Py.VStr command)]) kwargs)
    = Some (from_option id conn (PyDict.get "ssh_conn_id" kwargs))
  ∧ ∀ k v, PyDict.get k kwargs = Some v →
      PyDict.get k
        (PyDict.update (PyDict.of_list [("ssh_conn_id", conn);
                                        ("command", Py.VStr command)]) kwargs)
      = Some v.
Proof.
  intros Hnd Hcl. repeat split.
  - rewrite get_update by done.
    rewrite (get_absent "command" kwargs); [reflexivity|].
    apply (clashes_false _ _ _ Hcl). set_solver.
  - rewrite get_update by done.
    by destruct (PyDict.get "ssh_conn_id" kwargs).
  - intros k v Hk. rewrite get_update by done. by rewrite Hk.
Qed.

End execute_branch.

(** With [return_command] false and keywords that do not repeat a
    parameter of [_ssh], [run] and [build] call the operator once and
    return its object or pass its exception on; the operator receives,
    under [command], the very string [return_command] true would return,
    under [ssh_conn_id] the component's connection identifier unless the
    keywords carry one of their own, and all the keywords. *)
Theorem docker_execute_hands_over_command {H : Type}
    (SSHOperator : PyDict.t Py.value → Py.result H) (self : Docker.t)
    (kwargs : PyDict.t Py.value) :
  NoDup kwargs.*1 →
  Py.clashes ["self"; "command"] kwargs = false →
  (∀ docker_flags image_name app_args, ∃ command d,
      Docker.run SSHOperator self docker_flags image_name app_args true kwargs
      = Py.ok (Py.Command command)
      ∧ Docker.run SSHOperator self docker_flags image_name app_args false kwargs
        = match SSHOperator d with
          | inl e => Py.raise e
          | inr h => Py.ok (Py.Handle h)
          end
      ∧ PyDict.get "command" d = Some (Py.VStr command)
      ∧ PyDict.get "ssh_conn_id" d
        = Some (from_option id (Py.VStr (Docker.ssh_conn_id self))
                  (PyDict.get "ssh_conn_id" kwargs))
      ∧ ∀ k v, PyDict.get k kwargs = Some v → PyDict.get k d = Some v)
  ∧ (∀ image_name docker_flags project_path, ∃ command d,
      Docker.build SSHOperator self image_name docker_flags project_path true kwargs
      = Py.ok (Py.Command command)
      ∧ Docker.build SSHOperator self image_name docker_flags project_path false kwargs
        = match SSHOperator d with
          | inl e => Py.raise e
          | inr h => Py.ok (Py.Handle h)
          end
      ∧ PyDict.get "command" d = Some (Py.VStr command)
      ∧ PyDict.get "ssh_conn_id" d
        = Some (from_option id (Py.VStr (Docker.ssh_conn_id self))
                  (PyDict.get "ssh_conn_id" kwargs))
      ∧ ∀ k v, PyDict.get k kwargs = Some v → PyDict.get k d = Some v).
Proof.
  intros Hnd Hcl. split; intros; eexists _, _;
    (split; [reflexivity|]); unfold Docker.run, Docker.build, Docker.call_ssh;
    cbv zeta; rewrite Hcl; unfold Docker._ssh, Py.bind;
    (split; [reflexivity|]); by apply operator_kwargs_lookup.
Qed.

(** The property above for a component with credentials, a task
    identifier and a connection override among the keywords. *)
Lemma docker_execute_witness :
  ∃ command d,
    Docker.run (H := PyDict.t Py.value) (λ kw, Py.ok kw)
      (Docker.__init__ "my_ssh_connection" (Some "myuser") (Some "mypassword"))
      DockerRunFlag.detach "my_image" None true
      [("task_id", Py.VStr "run"); ("ssh_conn_id", Py.VStr "other")]
    = Py.ok (Py.Command command)
    ∧ Docker.run (H := PyDict.t Py.value) (λ kw, Py.ok kw)
        (Docker.__init__ "my_ssh_connection" (Some "myuser") (Some "mypassword"))
        DockerRunFlag.detach "my_image" None false
        [("task_id", Py.VStr "run"); ("ssh_conn_id", Py.VStr "other")]
      = Py.ok (Py.Handle d)
    ∧ PyDict.get "command" d = Some (Py.VStr command)
    ∧ PyDict.get "ssh_conn_id" d = Some (Py.VStr "other")
    ∧ ∀ k v, PyDict.get k [("task_id", Py.VStr "run");
                           ("ssh_conn_id", Py.VStr "other")] = Some v →
        PyDict.get k d = Some v.
Proof.
  exact (proj1 (docker_execute_hands_over_command
                  (H := PyDict.t Py.value) (λ kw, Py.ok kw)
                  (Docker.__init__ "my_ssh_connection" (Some "myuser")
                                   (Some "mypassword"))
                  [("task_id", Py.VStr "run"); ("ssh_conn_id", Py.VStr "other")]
                  ltac:(compute_done) eq_refl)
               DockerRunFlag.detach "my_image" None).
Defined.

(** A [command] keyword among the caller's keywords cannot replace the
    assembled command: with [return_command] false, [run], [build] and
    [clone] raise [TypeError] and the operator is not called, while with
    [return_command] true the keyword is ignored. *)
Theorem command_keyword_rejected {H : Type}
    (SSHOperator : PyDict.t Py.value → Py.result H)
    (kwargs : PyDict.t Py.value) :
  "command" ∈ kwargs.*1 →
  (∀ self docker_flags image_name app_args,
      Docker.run SSHOperator self docker_flags image_name app_args false kwargs
      = Py.raise Py.TypeError
      ∧ Docker.run SSHOperator self docker_flags image_name app_args true kwargs
        = Docker.run SSHOperator self docker_flags image_name app_args true [])
  ∧ (∀ self image_name docker_flags project_path,
      Docker.build SSHOperator self image_name docker_flags project_path false kwargs
      = Py.raise Py.TypeError
      ∧ Docker.build SSHOperator self image_name docker_flags project_path true kwargs
        = Docker.build SSHOperator self image_name docker_flags project_path true [])
  ∧ (∀ self repository_url directory flags,
      Git.clone SSHOperator self repository_url directory (Some flags) false kwargs
      = Py.raise Py.TypeError
      ∧ Git.clone SSHOperator self repository_url directory (Some flags) true kwargs
        = Git.clone SSHOperator self repository_url directory (Some flags) true []).
Proof.
  intros Hk.
  assert (Hcl : Py.clashes ["self"; "command"] kwargs = true).
  { apply (clashes_true _ _ "command"); [compute_done|exact Hk]. }
  repeat split; unfold Docker.run, Docker.build, Git.clone, Docker.call_ssh,
    Git.call_ssh; cbv zeta; by rewrite Hcl.
Qed.

(** The property above for a call that passes [command] next to a task
    identifier. *)
Lemma command_keyword_witness :
  Docker.run (H := PyDict.t Py.value) (λ kw, Py.ok kw)
    (Docker.__init__ "my_ssh_connection" None None)
    DockerRunFlag.detach "my_image" None false
    [("task_id", Py.VStr "run"); ("command", Py.VStr "id")]
  = Py.raise Py.TypeError.
Proof.
  exact (proj1 (proj1 (command_keyword_rejected
                         (H := PyDict.t Py.value) (λ kw, Py.ok kw)
                         [("task_id", Py.VStr "run"); ("command", Py.VStr "id")]
                         ltac:(compute_done))
                      (Docker.__init__ "my_ssh_connection" None None)
                      DockerRunFlag.detach "my_image" None)).
Defined.

(** With flags given and keywords that repeat no parameter of [_ssh], the
    execute branch of [clone] turns on the instance attribute alone:
    without [ssh_conn_id] it raises [AttributeError] before the operator
    is called; with it the operator is called once, receives the quoted
    clone command under [command], the attribute under [ssh_conn_id]
    unless the keywords carry one, and all the keywords, and its object or
    exception is what [clone] returns or raises. *)
Theorem clone_execute_by_attribute {H : Type}
    (SSHOperator : PyDict.t Py.value → Py.result H)
    (self : gmap string Py.value) (repository_url directory : string)
    (flags : list string) (kwargs : PyDict.t Py.value) :
  NoDup kwargs.*1 →
  Py.clashes ["self"; "command"] kwargs = false →
  match self !! "ssh_conn_id" with
  | None =>
      Git.clone SSHOperator self repository_url directory (Some flags) false kwargs
      = Py.raise Py.AttributeError
  | Some conn =>
      ∃ d,
        Git.clone SSHOperator self repository_url directory (Some flags) false kwargs
        = match SSHOperator d with
          | inl e => Py.raise e
          | inr h => Py.ok (Py.Handle h)
          end
        ∧ PyDict.get "command" d
          = Some (Py.VStr (Py.join " " (map shlex.quote
                     (Spec.clone_args flags repository_url directory))))
        ∧ PyDict.get "ssh_conn_id" d
          = Some (from_option id conn (PyDict.get "ssh_conn_id" kwargs))
        ∧ ∀ k v, PyDict.get k kwargs = Some v → PyDict.get k d = Some v
  end.
Proof.
  intros Hnd Hcl. unfold Git.clone, Git.call_ssh, Git._ssh, Py.getattr.
  cbv zeta. rewrite Hcl. destruct (self !! "ssh_conn_id") as [conn|].
  - eexists. split; [reflexivity|]. by apply operator_kwargs_lookup.
  - reflexivity.
Qed.

(** The property above on an instance given the attribute after
    construction. *)
Lemma clone_execute_witness :
  ∃ d,
    Git.clone (H := PyDict.t Py.value) (λ kw, Py.ok kw)
      (<["ssh_conn_id" := Py.VStr "my_ssh_connection"]> Git.__init__)
      "https://example/repo.git" "my dir" (Some GitCloneFlag.verbose) false
      [("task_id", Py.VStr "clone")]
    = Py.ok (Py.Handle d)
    ∧ PyDict.get "command" d
      = Some (Py.VStr "git clone --verbose https://example/repo.git 'my dir'")
    ∧ PyDict.get "ssh_conn_id" d = Some (Py.VStr "my_ssh_connection")
    ∧ ∀ k v, PyDict.get k [("task_id", Py.VStr "clone")] = Some v →
        PyDict.get k d = Some v.
Proof.
  exact (clone_execute_by_attribute
           (H := PyDict.t Py.value) (λ kw, Py.ok kw)
           (<["ssh_conn_id" := Py.VStr "my_ssh_connection"]> Git.__init__)
           "https://example/repo.git" "my dir" GitCloneFlag.verbose
           [("task_id", Py.VStr "clone")] ltac:(compute_done) eq_refl).
Defined.

(** ** What a command says about its arguments *)

Section injectivity.

Lemma map_TWord_inj (l l' : list string) :
  map posix.TWord l = map posix.TWord l' → l = l'.
Proof.
  revert l'. induction l as [|a l IH]; intros [|b l'] Heq; try done.
  cbn in Heq. injection Heq as -> Hl. f_equal. by apply IH.
Qed.

(** Two argument vectors with the same quoted, joined text are equal. *)
Lemma join_quote_inj (a b : string) (l l' : list string) :
  Py.join " " (map shlex.quote (a :: l)) = Py.join " " (map shlex.quote (b :: l')) →
  a :: l = b :: l'.
Proof.
  intros Heq. apply (f_equal posix.tokens) in Heq.
  rewrite !tokens_plain in Heq.
  apply map_TWord_inj. congruence.
Qed.

Lemma with_login_inj (login : option string) (c1 c2 : string) :
  Docker.with_login login c1 = Docker.with_login login c2 → c1 = c2.
Proof.
  destruct login as [[|c l]|]; cbn [Docker.with_login]; try done.
  intros Heq. apply (inj (String.app (String c l))) in Heq.
  by apply (inj (String.app " && ")) in Heq.
Qed.

End injectivity.

(** With [return_command] true the command determines the argument
    vector and nothing more.  Two [build] calls on one component return
    the same string exactly when image name, flags and project path all
    agree; two [clone] calls exactly when URL, directory and flags agree;
    two [run] calls exactly when the flags, the image name and the
    application arguments concatenate to the same list, so the command
    does not record where the flags end and the arguments begin. *)
Theorem command_determines_arguments {H : Type}
    (SSHOperator : PyDict.t Py.value → Py.result H) :
  (∀ self f1 i1 a1 kw1 f2 i2 a2 kw2,
      Docker.run SSHOperator self f1 i1 a1 true kw1
      = Docker.run SSHOperator self f2 i2 a2 true kw2
      ↔ f1 ++ i1 :: Py.or_list a1 = f2 ++ i2 :: Py.or_list a2)
  ∧ (∀ self i1 f1 p1 kw1 i2 f2 p2 kw2,
      Docker.build SSHOperator self i1 f1 p1 true kw1
      = Docker.build SSHOperator self i2 f2 p2 true kw2
      ↔ i1 = i2 ∧ f1 = f2 ∧ p1 = p2)
  ∧ (∀ self1 u1 d1 f1 kw1 self2 u2 d2 f2 kw2,
      Git.clone SSHOperator self1 u1 d1 (Some f1) true kw1
      = Git.clone SSHOperator self2 u2 d2 (Some f2) true kw2
      ↔ u1 = u2 ∧ d1 = d2 ∧ f1 = f2).
Proof.
  split; [|split].
  - intros. unfold Docker.run. cbv zeta. cbn [app]. split.
    + intros Heq.
      assert (Hargs : "docker" :: "run" :: f1 ++ i1 :: Py.or_list a1
                      = "docker" :: "run" :: f2 ++ i2 :: Py.or_list a2)
        by (apply join_quote_inj, (with_login_inj (Docker._login_command self));
            unfold Py.ok in Heq; congruence).
      congruence.
    + by intros ->.
  - intros. unfold Docker.build. cbv zeta. cbn [app]. split.
    + intros Heq.
      assert (Hargs : "docker" :: "build" :: f1 ++ ["-t"; i1; p1]
                      = "docker" :: "build" :: f2 ++ ["-t"; i2; p2])
        by (apply join_quote_inj, (with_login_inj (Docker._login_command self));
            unfold Py.ok in Heq; congruence).
      injection Hargs as Hargs.
      apply app_inj_2 in Hargs as [-> Htail]; [|done].
      by injection Htail as -> ->.
    + by intros (-> & -> & ->).
  - intros. unfold Git.clone. cbv zeta. cbn [app]. split.
    + intros Heq.
      assert (Hargs : "git" :: "clone" :: f1 ++ [u1; d1]
                      = "git" :: "clone" :: f2 ++ [u2; d2])
        by (apply join_quote_inj; unfold Py.ok in Heq; congruence).
      injection Hargs as Hargs.
      apply app_inj_2 in Hargs as [-> Htail]; [|done].
      by injection Htail as -> ->.
    + by intros (-> & -> & ->).
Qed.

(** ** Tokens that need no quoting *)

Section plain_tokens.

Lemma quote_plain (s : string) : Spec.plain s = true → shlex.quote s = s.
Proof.
  destruct s as [|c s]; [done|]. unfold Spec.plain, shlex.quote.
  by intros ->.
Qed.

Lemma map_quote_plain (l : list string) :
  Forall (λ a, Spec.plain a = true) l → map shlex.quote l = l.
Proof.
  induction 1 as [|a l Ha _ IH]; [reflexivity|].
  cbn [map]. by rewrite (quote_plain a Ha), IH.
Qed.

End plain_tokens.

(** When every flag token, the image name (or URL), the path (or
    directory) and every application argument is non-empty and made of
    letters, digits and the characters [_@%+=:,./-] only, the returned
    command is the plain space-joined argument vector, with no quoting
    character added, after the optional login prefix. *)
Theorem plain_tokens_verbatim {H : Type}
    (SSHOperator : PyDict.t Py.value → Py.result H)
    (flags : list string) (x y : string) (app_args : option (list string)) :
  Forall (λ a, Spec.plain a = true) flags →
  Spec.plain x = true →
  Spec.plain y = true →
  Forall (λ a, Spec.plain a = true) (Py.or_list app_args) →
  (∀ self kwargs,
      Docker.run SSHOperator self flags x app_args true kwargs
      = Py.ok (Py.Command
                 (Docker.with_login (Docker._login_command self)
                    (Py.join " " ("docker" :: "run" :: flags
                                    ++ x :: Py.or_list app_args)))))
  ∧ (∀ self kwargs,
      Docker.build SSHOperator self x flags y true kwargs
      = Py.ok (Py.Command
                 (Docker.with_login (Docker._login_command self)
                    (Py.join " " ("docker" :: "build" :: flags ++ ["-t"; x; y])))))
  ∧ (∀ self kwargs,
      Git.clone SSHOperator self x y (Some flags) true kwargs
      = Py.ok (Py.Command (Py.join " " ("git" :: "clone" :: flags ++ [x; y])))).
Proof.
  intros Hf Hx Hy Ha.
  repeat split; intros; unfold Docker.run, Docker.build, Git.clone; cbv zeta;
    rewrite map_quote_plain; try reflexivity;
    repeat first [ apply Forall_cons; split; [done|]
                 | apply Forall_app; split; [done|]
                 | apply Forall_nil; done
                 | assumption ].
Qed.

(** The property above for the flags, image and path of the module's own
    usage example. *)
Lemma plain_tokens_witness :
  Docker.build (H := unit) (λ _, Py.raise (Py.OperatorError "no task_id"))
    (Docker.__init__ "my_ssh_connection" (Some "myuser") (Some "mypassword"))
    "my_image"
    (DockerBuildFlag.build_arg (PyDict.of_list [("arg1", "value1")])
       ++ DockerBuildFlag.pull)
    "." true []
  = Py.ok (Py.Command
             (Docker.with_login
                (Docker._login_command
                   (Docker.__init__ "my_ssh_connection" (Some "myuser")
                                    (Some "mypassword")))
                (Py.join " " ("docker" :: "build"
                   :: (DockerBuildFlag.build_arg (PyDict.of_list [("arg1", "value1")])
                         ++ DockerBuildFlag.pull)
                   ++ ["-t"; "my_image"; "."])))).
Proof.
  exact (proj1 (proj2 (plain_tokens_verbatim
                         (H := unit) (λ _, Py.raise (Py.OperatorError "no task_id"))
                         (DockerBuildFlag.build_arg
                            (PyDict.of_list [("arg1", "value1")])
                            ++ DockerBuildFlag.pull)
                         "my_image" "." None
                         ltac:(compute_done) eq_refl eq_refl ltac:(compute_done)))
               (Docker.__init__ "my_ssh_connection" (Some "myuser")
                                (Some "mypassword"))
               []).
Defined.

(** ** Map builders: reading the entries back *)

Section map_builders.

(** A composite token splits at the first separator when the key holds
    none. *)
Lemma sep_inj (c : ascii) (k1 : string) : ∀ (k2 v1 v2 : string),
  Py.contains_char c k1 = false → Py.contains_char c k2 = false →
  k1 +:+ String c v1 = k2 +:+ String c v2 → k1 = k2 ∧ v1 = v2.
Proof.
  induction k1 as [|a k1 IH]; intros [|b k2] v1 v2 H1 H2 Heq.
  - rewrite !app_empty_l in Heq. by injection Heq.
  - rewrite app_empty_l, app_cons in Heq. injection Heq as <- _.
    cbn in H2. by rewrite Ascii.eqb_refl in H2.
  - rewrite app_empty_l, app_cons in Heq. injection Heq as -> _.
    cbn in H1. by rewrite Ascii.eqb_refl in H1.
  - rewrite !app_cons in Heq. injection Heq as -> Heq.
    cbn in H1, H2. apply orb_false_elim in H1 as [_ H1].
    apply orb_false_elim in H2 as [_ H2].
    destruct (IH k2 v1 v2 H1 H2 Heq) as [-> ->]. done.
Qed.

Lemma flag_pairs_inj (flag : string) (c : ascii) (M1 : list (string * string)) :
  ∀ M2 : list (string * string),
    Forall (λ kv, Py.contains_char c kv.1 = false) M1 →
    Forall (λ kv, Py.contains_char c kv.1 = false) M2 →
    Spec.flag_pairs flag (String c EmptyString) M1
    = Spec.flag_pairs flag (String c EmptyString) M2 →
    M1 = M2.
Proof.
  induction M1 as [|[k1 v1] M1 IH]; intros [|[k2 v2] M2] H1 H2 Heq; try done.
  apply Forall_cons in H1 as [Hk1 H1]. apply Forall_cons in H2 as [Hk2 H2].
  unfold Spec.flag_pairs in Heq. cbn [map concat fst snd app] in Heq.
  injection Heq as Htok Hrest.
  change (String c EmptyString +:+ v1) with (String c v1) in Htok.
  change (String c EmptyString +:+ v2) with (String c v2) in Htok.
  destruct (sep_inj c k1 k2 v1 v2 Hk1 Hk2 Htok) as [-> ->].
  f_equal. by apply IH.
Qed.

Lemma flag_pairs_app (flag sep : string) (M1 M2 : list (string * string)) :
  Spec.flag_pairs flag sep (M1 ++ M2)
  = Spec.flag_pairs flag sep M1 ++ Spec.flag_pairs flag sep M2.
Proof. unfold Spec.flag_pairs. by rewrite map_app, concat_app. Qed.

End map_builders.

(** The flag list of a map builder gives the map back: when no key holds
    the separator ([=] for [env] and [build_arg], [:] for [publish] and
    [volume]), two maps with the same flag list are the same map, entry
    for entry and in the same order. *)
Theorem map_builders_injective (M1 M2 N1 N2 : PyDict.t string) :
  Forall (λ kv, Py.contains_char "=" kv.1 = false) (M1 ++ M2) →
  Forall (λ kv, Py.contains_char ":" kv.1 = false) (N1 ++ N2) →
  (DockerRunFlag.env M1 = DockerRunFlag.env M2 → M1 = M2)
  ∧ (DockerBuildFlag.build_arg M1 = DockerBuildFlag.build_arg M2 → M1 = M2)
  ∧ (DockerRunFlag.publish N1 = DockerRunFlag.publish N2 → N1 = N2)
  ∧ (DockerRunFlag.volume N1 = DockerRunFlag.volume N2 → N1 = N2).
Proof.
  intros [HM1 HM2]%Forall_app [HN1 HN2]%Forall_app.
  unfold DockerRunFlag.env, DockerBuildFlag.build_arg, DockerRunFlag.publish,
    DockerRunFlag.volume, PyDict.items.
  rewrite !loop_flag_pairs. cbn [app].
  repeat split; intros Heq; eapply flag_pairs_inj; eauto.
Qed.

(** The property above at two port maps. *)
Lemma map_builders_injective_witness :
  (DockerRunFlag.env [("PATH", "/bin")] = DockerRunFlag.env [("PATH", "/bin")]
   → [("PATH", "/bin")] = [("PATH", "/bin")])
  ∧ (DockerBuildFlag.build_arg [("PATH", "/bin")]
     = DockerBuildFlag.build_arg [("PATH", "/bin")]
     → [("PATH", "/bin")] = [("PATH", "/bin")])
  ∧ (DockerRunFlag.publish [("8080", "80")] = DockerRunFlag.publish [("80", "8080")]
     → [("8080", "80")] = [("80", "8080")])
  ∧ (DockerRunFlag.volume [("8080", "80")] = DockerRunFlag.volume [("80", "8080")]
     → [("8080", "80")] = [("80", "8080")]).
Proof.
  exact (map_builders_injective
           [("PATH", "/bin")] [("PATH", "/bin")] [("8080", "80")] [("80", "8080")]
           ltac:(compute_done) ltac:(compute_done)).
Defined.

(** Without the condition on the keys the flag list is ambiguous: a key
    that holds the separator renders like a shorter key with a longer
    value. *)
Example map_builders_collision :
  DockerRunFlag.env [("A=B", "C")] = DockerRunFlag.env [("A", "B=C")]
  ∧ DockerRunFlag.volume [("C:/data", "/data")]
    = DockerRunFlag.volume [("C", "/data:/data")].
Proof. split; reflexivity. Qed.

(** A map builder applied to two maps merged into one gives the two flag
    lists one after the other, provided the maps share no key. *)
Theorem map_builders_merge (M1 M2 : PyDict.t string) :
  NoDup (M1.*1 ++ M2.*1) →
  DockerRunFlag.env (PyDict.update M1 M2)
  = DockerRunFlag.env M1 ++ DockerRunFlag.env M2
  ∧ DockerBuildFlag.build_arg (PyDict.update M1 M2)
    = DockerBuildFlag.build_arg M1 ++ DockerBuildFlag.build_arg M2
  ∧ DockerRunFlag.publish (PyDict.update M1 M2)
    = DockerRunFlag.publish M1 ++ DockerRunFlag.publish M2
  ∧ DockerRunFlag.volume (PyDict.update M1 M2)
    = DockerRunFlag.volume M1 ++ DockerRunFlag.volume M2.
Proof.
  intros Hnd. rewrite (update_fresh M2 M1 Hnd).
  unfold DockerRunFlag.env, DockerBuildFlag.build_arg, DockerRunFlag.publish,
    DockerRunFlag.volume, PyDict.items.
  rewrite !loop_flag_pairs. cbn [app]. by rewrite !flag_pairs_app.
Qed.

(** The property above at two environment maps. *)
Lemma map_builders_merge_witness :
  DockerRunFlag.env (PyDict.update [("A", "1")] [("B", "2"); ("C", "3")])
  = DockerRunFlag.env [("A", "1")] ++ DockerRunFlag.env [("B", "2"); ("C", "3")].
Proof.
  exact (proj1 (map_builders_merge [("A", "1")] [("B", "2"); ("C", "3")]
                  ltac:(compute_done))).
Defined.
